(** * VORTEX: retry-wrapped tasks and the primary/fallback flow controller

    A shallow embedding of [src/Vortex.py]: the decorator [vortex_task]
    (a [tenacity.retry] policy with [stop_after_attempt],
    [wait_exponential] and [reraise=True]) and the coroutine
    [vortex_flow].

    Python code is effectful: an operation reads and changes the world,
    it may return or raise, and the framework logs, sleeps and calls.
    Computations are therefore functions from a world to a result, a new
    world and the events they produced, in execution order. *)

From Stdlib Require Import ZArith List String Lia.
Import ListNotations.

Local Open Scope string_scope.
Local Open Scope Z_scope.
Local Open Scope list_scope.

(** ** Raised values

    [except Exception] is a class test.  Python splits what can be raised
    into instances of [Exception], here [Exc], and the other
    [BaseException]s, here [Sig]; [asyncio.CancelledError] is one of the
    latter (Python 3.8 and later).  An operation fails when it raises an
    [Exception]. *)

Inductive exn : Type :=
| Exn (cls : string) (msg : string)   (* an instance of an Exception subclass *)
| RetryError (last_attempt : exn).    (* tenacity.RetryError around the last attempt *)

Inductive base_exn : Type :=
| CancelledError
| KeyboardInterrupt
| SystemExit
| GeneratorExit.

Inductive raised : Type :=
| Exc (e : exn)
| Sig (s : base_exn).

Inductive result (A : Type) : Type :=
| Returned (a : A)
| Raised (x : raised)
| OutOfFuel.

Arguments Returned {A} a.
Arguments Raised {A} x.
Arguments OutOfFuel {A}.

(** ** Observable events *)

Inductive callee : Type := Primary | Fallback | Wrapped.

Inductive level : Type := INFO | WARNING | ERROR.

(** The six records [vortex_flow] hands to [logger]. *)
Inductive message : Type :=
| ExecutingVector (context : string)
| VectorInstability (context : string) (e : exn)
| InvertingVector
| StabilizedViaFallback
| FallbackAlsoFailed (fb_e : exn)
| NoFallbackDefined.

(** A call is a node that holds the events of its body, so that what an
    operation does inside never counts as a call made by the framework. *)
#[warnings="-register-all"]
Inductive event : Type :=
| Call (c : callee) (inner : list event)
| Sleep (seconds : Z)
| Log (l : level) (m : message).

Definition is_call (c : callee) (ev : event) : bool :=
  match ev, c with
  | Call Primary _, Primary => true
  | Call Fallback _, Fallback => true
  | Call Wrapped _, Wrapped => true
  | _, _ => false
  end.

Definition calls (c : callee) (tr : list event) : nat :=
  List.length (filter (is_call c) tr).

Fixpoint sleeps (tr : list event) : list Z :=
  match tr with
  | [] => []
  | Sleep d :: tr' => d :: sleeps tr'
  | _ :: tr' => sleeps tr'
  end.

Section Model.

Context {World T : Type}.

(** ** The computation monad *)

Definition M (A : Type) : Type := World -> result A * World * list event.

Definition ret {A} (a : A) : M A := fun w => (Returned a, w, []).

Definition raise {A} (x : raised) : M A := fun w => (Raised x, w, []).

Definition bind {A B} (m : M A) (k : A -> M B) : M B :=
  fun w =>
    let '(r, w1, tr1) := m w in
    match r with
    | Returned a => let '(r2, w2, tr2) := k a w1 in (r2, w2, tr1 ++ tr2)
    | Raised x => (Raised x, w1, tr1)
    | OutOfFuel => (OutOfFuel, w1, tr1)
    end.

(** [try: body   except Exception as e: handler e] *)
Definition try_except_Exception {A} (body : M A) (handler : exn -> M A) : M A :=
  fun w =>
    let '(r, w1, tr1) := body w in
    match r with
    | Raised (Exc e) => let '(r2, w2, tr2) := handler e w1 in (r2, w2, tr1 ++ tr2)
    | _ => (r, w1, tr1)
    end.

Definition logger (l : level) (m : message) : M unit :=
  fun w => (Returned tt, w, [Log l m]).

Definition outcome {A} (x : result A * World * list event) : result A := fst (fst x).
Definition world_after {A} (x : result A * World * list event) : World := snd (fst x).
Definition trace {A} (x : result A * World * list event) : list event := snd x.

(** ** The values passed as [primary] and [fallback]

    Neither argument is checked by [vortex_flow]: [fallback] is tested
    for truth and both are called.  The model keeps the values for
    which those two operations differ. *)

Inductive pyval : Type :=
| PyNone
| PyInt (z : Z)
| PyStr (s : string)
| PyFunction (f : M T)
| PyObject (cls : string) (bool_ : bool) (call_ : option (M T)).

Definition truthy (v : pyval) : bool :=
  match v with
  | PyNone => false
  | PyInt z => negb (z =? 0)
  | PyStr s => negb (String.eqb s "")
  | PyFunction _ => true
  | PyObject _ b _ => b
  end.

Definition callable (v : pyval) : option (M T) :=
  match v with
  | PyFunction f => Some f
  | PyObject _ _ c => c
  | _ => None
  end.

Definition type_name (v : pyval) : string :=
  match v with
  | PyNone => "NoneType"
  | PyInt _ => "int"
  | PyStr _ => "str"
  | PyFunction _ => "function"
  | PyObject cls _ _ => cls
  end.

Definition not_callable (v : pyval) : exn :=
  Exn "TypeError" (String.append "'" (String.append (type_name v) "' object is not callable")).

(** [await v()] at the call site named [c]. *)
Definition await_call (c : callee) (v : pyval) : M T :=
  match callable v with
  | Some f => fun w => let '(r, w1, tr) := f w in (r, w1, [Call c tr])
  | None => raise (Exc (not_callable v))
  end.

End Model.

Declare Scope vortex_scope.
Delimit Scope vortex_scope with vortex.
Notation "x <- m ;; k" := (bind m (fun x => k))
  (at level 61, m at next level, right associativity) : vortex_scope.
Notation "m ;; k" := (bind m (fun _ => k))
  (at level 61, right associativity) : vortex_scope.
Notation "'try' body 'except_Exception' e '=>' handler" :=
  (try_except_Exception body (fun e => handler))
  (at level 62, e name, body at level 61, handler at level 61) : vortex_scope.

Section Flow.

Context {World T : Type}.
Local Open Scope vortex_scope.

(** ** [vortex_flow] (Vortex.py, lines 53-81) *)

Definition vortex_flow (primary fallback : @pyval World T) (context : string)
  : @M World T :=
  try
    (logger INFO (ExecutingVector context) ;;
     await_call Primary primary)
  except_Exception e =>
    (logger WARNING (VectorInstability context e) ;;
     if truthy fallback then
       logger INFO InvertingVector ;;
       (try
          (result <- await_call Fallback fallback ;;
           logger INFO StabilizedViaFallback ;;
           ret result)
        except_Exception fb_e =>
          (logger ERROR (FallbackAlsoFailed fb_e) ;;
           raise (Exc fb_e)))
     else
       logger ERROR NoFallbackDefined ;;
       raise (Exc e)).

End Flow.

(** ** The retry policy (Vortex.py, lines 39-48)

    [vortex_task] only configures [tenacity.retry]; the loop it configures
    belongs to that library.  The definitions below follow tenacity's
    [stop_after_attempt], [wait_exponential], [RetryCallState] and the
    attempt / sleep loop of [Retrying.__call__] (and of its coroutine twin
    [AsyncRetrying.__call__]), with the library's default retry predicate
    [retry_if_exception_type(Exception)], as tenacity 8 and 9 have them
    (the exponent of the backoff is [attempt_number - 1]).  Durations are
    whole seconds, as the type hints of [vortex_task] have them;
    [wait_exponential] stores its two bounds as floats, and the float of an
    integer is again a whole number, the one [float_round] gives. *)

(** *** [float] of a Python integer

    [float(z)] is the binary64 value nearest to [z], ties to the even
    significand; it raises [OverflowError] when that value would reach
    [2^1024].  [round_half_even m shift] rounds [m >= 0] to a multiple of
    [2^shift]. *)

Definition round_half_even (m shift : Z) : Z :=
  let q := m / 2 ^ shift in
  let rest := m mod 2 ^ shift in
  let half := 2 ^ (shift - 1) in
  if ((half <? rest) || ((rest =? half) && Z.odd q))%bool
  then (q + 1) * 2 ^ shift
  else q * 2 ^ shift.

(** 53 bits of significand: shorter integers are kept as they are. *)
Definition float_abs (m : Z) : Z :=
  let bits := Z.log2 m + 1 in
  if bits <=? 53 then m else round_half_even m (bits - 53).

Definition float_round (z : Z) : Z := Z.sgn z * float_abs (Z.abs z).

Definition float_overflows (z : Z) : bool := 2 ^ 1024 <=? Z.abs (float_round z).

Definition OverflowError : exn := Exn "OverflowError" "int too large to convert to float".

Definition float (z : Z) : result Z :=
  if float_overflows z then Raised (Exc OverflowError) else Returned (float_round z).

Record RetryCallState : Type := {
  attempt_number : Z;
  idle_for : Z
}.

Record Retrying : Type := {
  stop : RetryCallState -> bool;
  wait : RetryCallState -> Z;
  reraise : bool
}.

(** [retry_state.attempt_number >= self.max_attempt_number] *)
Definition stop_after_attempt (max_attempt_number : Z) (retry_state : RetryCallState) : bool :=
  max_attempt_number <=? attempt_number retry_state.

(** [max(max(0, self.min), min(self.multiplier * 2 ** (attempt_number - 1), self.max))]
    with [self.min = float(min)] and [self.max = float(max)], as the
    constructor stores them; the multiplier and the power stay integers,
    and Python compares integers with floats exactly.  The value is zero,
    one of the two floats, or a power of two below the upper one, so the
    float of it that the loop hands to [sleep] is that value. *)
Definition wait_exponential (multiplier min max : Z) (retry_state : RetryCallState) : Z :=
  Z.max (Z.max 0 (float_round min))
        (Z.min (multiplier * 2 ^ (attempt_number retry_state - 1)) (float_round max)).

Definition retry (stop : RetryCallState -> bool) (wait : RetryCallState -> Z)
                 (reraise : bool) : Retrying :=
  {| stop := stop; wait := wait; reraise := reraise |}.

(** The policy [vortex_task] returns.  It returns one when neither
    [float(min_wait)] nor [float(max_wait)] overflows; [call_vortex_task]
    below has the other case. *)
Definition vortex_task (retries min_wait max_wait : Z) : Retrying :=
  retry (stop_after_attempt retries)
        (wait_exponential 1 min_wait max_wait)
        true.

(** Building [wait_exponential] raises [OverflowError] for a bound that
    has no float; nothing is decorated then. *)
Definition vortex_task_raises (min_wait max_wait : Z) : bool :=
  (float_overflows min_wait || float_overflows max_wait)%bool.

Definition call_vortex_task (retries min_wait max_wait : Z) : result Retrying :=
  if vortex_task_raises min_wait max_wait
  then Raised (Exc OverflowError)
  else Returned (vortex_task retries min_wait max_wait).

(** The defaults of the signature: [retries=3, min_wait=1, max_wait=4]. *)
Definition vortex_task_default : Retrying := vortex_task 3 1 4.

Definition first_attempt : RetryCallState :=
  {| attempt_number := 1; idle_for := 0 |}.

Definition prepare_for_next_attempt (seconds : Z) (retry_state : RetryCallState)
  : RetryCallState :=
  {| attempt_number := attempt_number retry_state + 1;
     idle_for := idle_for retry_state + seconds |}.

(** The delay the policy of [vortex_task] inserts after failing attempt [i]. *)
Definition backoff_delay (retries min_wait max_wait i : Z) : Z :=
  wait (vortex_task retries min_wait max_wait)
       {| attempt_number := i; idle_for := 0 |}.

Section Retry.

Context {World T : Type}.

(** [time.sleep] or [asyncio.sleep]: the wait ends normally or is
    interrupted by a [BaseException] raised into it. *)
Variable sleep : Z -> World -> option base_exn * World.

Local Open Scope vortex_scope.

Definition sleep_for (seconds : Z) : @M World unit :=
  fun w =>
    let '(interrupt, w1) := sleep seconds w in
    match interrupt with
    | None => (Returned tt, w1, [Sleep seconds])
    | Some s => (Raised (Sig s), w1, [Sleep seconds])
    end.

Definition invoke (c : callee) (fn : @M World T) : @M World T :=
  fun w => let '(r, w1, tr) := fn w in (r, w1, [Call c tr]).

(** One unit of fuel per attempt.  A value returned, or a raised value
    that is no [Exception], leaves the loop at once; an [Exception] is
    handed to [stop], then to [wait]. *)
Fixpoint retry_loop (r : Retrying) (fn : @M World T) (fuel : nat)
                    (retry_state : RetryCallState) : @M World T :=
  match fuel with
  | O => fun w => (OutOfFuel, w, [])
  | S fuel' =>
      try (invoke Wrapped fn)
      except_Exception e =>
        (if stop r retry_state then
           raise (Exc (if reraise r then e else RetryError e))
         else
           let seconds := wait r retry_state in
           sleep_for seconds ;;
           retry_loop r fn fuel' (prepare_for_next_attempt seconds retry_state))
  end.

(** Calling a function decorated with [r]. *)
Definition retry_call (r : Retrying) (fn : @M World T) (fuel : nat) : @M World T :=
  retry_loop r fn fuel first_attempt.

End Retry.

(** ** The course of a retried call

    [attempt_state] and [attempt_world] give the retry state and the world
    in which the attempt that comes [k] attempts after [retry_state]
    starts, when the [k] attempts before it fail with an [Exception] and
    each wait ends normally; [waits_trace] gives the events up to there. *)

Section Course.

Context {World T : Type}.
Variable sleep : Z -> World -> option base_exn * World.
Variable r : Retrying.
Variable fn : @M World T.

Fixpoint attempt_state (k : nat) (retry_state : RetryCallState) : RetryCallState :=
  match k with
  | O => retry_state
  | S k' =>
      attempt_state k' (prepare_for_next_attempt (wait r retry_state) retry_state)
  end.

Fixpoint attempt_world (k : nat) (retry_state : RetryCallState) (w : World) : World :=
  match k with
  | O => w
  | S k' =>
      attempt_world k'
        (prepare_for_next_attempt (wait r retry_state) retry_state)
        (snd (sleep (wait r retry_state) (world_after (fn w))))
  end.

Fixpoint waits_trace (k : nat) (retry_state : RetryCallState) (w : World) : list event :=
  match k with
  | O => []
  | S k' =>
      Call Wrapped (trace (fn w)) :: Sleep (wait r retry_state) ::
      waits_trace k'
        (prepare_for_next_attempt (wait r retry_state) retry_state)
        (snd (sleep (wait r retry_state) (world_after (fn w))))
  end.

(** The attempt started in [w] fails with an [Exception], the policy
    goes on, and the wait that follows is not interrupted. *)
Definition fails_and_waits (retry_state : RetryCallState) (w : World) : Prop :=
  (exists e, outcome (fn w) = Raised (Exc e)) /\
  stop r retry_state = false /\
  fst (sleep (wait r retry_state) (world_after (fn w))) = None.

(** The task is cancelled (or any other [BaseException] that is no
    [Exception] arrives) during the attempt started in [w]: raised into
    the operation in flight, or into the wait that follows its failure. *)
Definition cancelled_in_attempt (retry_state : RetryCallState) (w : World)
           (s : base_exn) : Prop :=
  outcome (fn w) = Raised (Sig s) \/
  ((exists e, outcome (fn w) = Raised (Exc e)) /\
   stop r retry_state = false /\
   fst (sleep (wait r retry_state) (world_after (fn w))) = Some s).

Definition first_attempts_fail (k : nat) (retry_state : RetryCallState) (w : World) : Prop :=
  forall j, (j < k)%nat ->
    fails_and_waits (attempt_state j retry_state) (attempt_world j retry_state w).

End Course.

(** The operation raises an [Exception] whenever it is invoked. *)
Definition always_fails {World T : Type} (fn : @M World T) : Prop :=
  forall w, exists e, outcome (fn w) = Raised (Exc e).

(** No wait is ever interrupted. *)
Definition never_interrupted {World : Type}
           (sleep : Z -> World -> option base_exn * World) : Prop :=
  forall seconds w, fst (sleep seconds w) = None.

(** What the specification asks of an invalid configuration: a
    [ConfigurationError] is raised and nothing has been called. *)
Definition fails_fast {World T : Type} (x : result T * World * list event) : Prop :=
  (exists msg, outcome x = Raised (Exc (Exn "ConfigurationError" msg))) /\
  forall c, calls c (trace x) = 0%nat.

(** The delay of the specification's formula, [min(max_delay, min_delay * 2^(i-1))]. *)
Definition spec_delay (min_delay max_delay i : Z) : Z :=
  Z.min max_delay (min_delay * 2 ^ (i - 1)).

(** ** Test doubles

    The operations of the scenarios: they count their invocations in the
    world, which also holds a clock advanced by the waits and an optional
    instant at which the surrounding task is cancelled. *)

Module Scenario.

Record world : Type := {
  invocations : nat;
  clock : Z;
  cancel_at : option Z
}.

Definition start : world :=
  {| invocations := 0; clock := 0; cancel_at := None |}.

Definition tick (w : world) : world :=
  {| invocations := S (invocations w); clock := clock w; cancel_at := cancel_at w |}.

Definition ConnectionError : exn := Exn "ConnectionError" "Connection Reset by Peer".

Definition raises_ConnectionError : @M world string :=
  fun w => (Raised (Exc ConnectionError), tick w, []).

Definition returns (s : string) : @M world string :=
  fun w => (Returned s, tick w, []).

Definition DiskError : exn := Exn "OSError" "disk not mounted".

Definition broken_backup : @M world string :=
  fun w => (Raised (Exc DiskError), tick w, []).

(** Fails until its [k]-th invocation, which returns [s]. *)
Definition succeeds_on (k : nat) (s : string) : @M world string :=
  fun w =>
    if (S (invocations w) <? k)%nat
    then (Raised (Exc ConnectionError), tick w, [])
    else (Returned s, tick w, []).

(** The task is cancelled while the operation is in flight. *)
Definition cancelled_in_flight : @M world string :=
  fun w => (Raised (Sig CancelledError), tick w, []).

(** A wait that always ends normally. *)
Definition sleep (seconds : Z) (w : world) : option base_exn * world :=
  (None, {| invocations := invocations w; clock := clock w + seconds;
            cancel_at := cancel_at w |}).

(** A wait that the cancellation of the task interrupts. *)
Definition cancellable_sleep (seconds : Z) (w : world) : option base_exn * world :=
  match cancel_at w with
  | Some t =>
      if t <? clock w + seconds
      then (Some CancelledError,
            {| invocations := invocations w; clock := Z.max t (clock w);
               cancel_at := cancel_at w |})
      else sleep seconds w
  | None => sleep seconds w
  end.

Definition cloud : @pyval world string := PyFunction (returns "CLOUD_DATA").
Definition backup : @pyval world string := PyFunction (returns "LOCAL_BACKUP").
Definition unreachable : @pyval world string := PyFunction raises_ConnectionError.

(** A callable object whose [__bool__] returns [False]. *)
Definition falsy_callable : @pyval world string :=
  PyObject "QuietBackup" false (Some (returns "LOCAL_BACKUP")).

(** The task will be cancelled two seconds from the start. *)
Definition cancelled_at_2 : world :=
  {| invocations := 0; clock := 0; cancel_at := Some 2 |}.

End Scenario.

(** ** Measures on runs *)

Definition level_eqb (a b : level) : bool :=
  match a, b with
  | INFO, INFO => true
  | WARNING, WARNING => true
  | ERROR, ERROR => true
  | _, _ => false
  end.

Definition is_log (l : level) (ev : event) : bool :=
  match ev with
  | Log l' _ => level_eqb l l'
  | _ => false
  end.

Definition is_any_call (ev : event) : bool :=
  match ev with
  | Call _ _ => true
  | _ => false
  end.

(** The records [logger] received at level [l]. *)
Definition logged (l : level) (tr : list event) : nat :=
  List.length (filter (is_log l) tr).




(** The attempts [stop_after_attempt(retries)] lets happen: the first
    attempt is made before the policy is asked. *)
Definition attempts_allowed (retries : Z) : nat :=
  Z.to_nat (Z.max 1 retries).

(** The operation returns or raises whenever it is invoked. *)
Definition terminates {World T : Type} (fn : @M World T) : Prop :=
  forall w, outcome (fn w) <> OutOfFuel.

(** * Properties of [vortex_flow] *)

Lemma calls_app c (tr1 tr2 : list event) :
  calls c (tr1 ++ tr2) = (calls c tr1 + calls c tr2)%nat.
Proof.
  unfold calls. rewrite filter_app, length_app. reflexivity.
Qed.

Lemma sleeps_app (tr1 tr2 : list event) :
  sleeps (tr1 ++ tr2) = sleeps tr1 ++ sleeps tr2.
Proof.
  induction tr1 as [|ev tr1 IH]; [reflexivity|].
  destruct ev; cbn; rewrite IH; reflexivity.
Qed.

Ltac unfold_flow :=
  unfold vortex_flow, try_except_Exception, bind, logger, ret, raise, await_call.

Section FlowClaims.

Context {World T : Type}.
Implicit Types (primary fallback : @pyval World T) (p f : @M World T).
Implicit Types (w : World) (r : T) (e fb_e : exn) (context : string).

(** C5. When the primary succeeds with [r], [vortex_flow] returns [r]
    in the world the primary left; its events are the opening log record
    and the one call of the primary, so the fallback, whatever it is,
    has been called zero times. *)
Theorem primary_success_skips_fallback primary fallback context p w r w1 tr1 :
  callable primary = Some p ->
  p w = (Returned r, w1, tr1) ->
  vortex_flow primary fallback context w
    = (Returned r, w1, [Log INFO (ExecutingVector context); Call Primary tr1]) /\
  calls Fallback (trace (vortex_flow primary fallback context w)) = 0%nat /\
  calls Primary (trace (vortex_flow primary fallback context w)) = 1%nat.
Proof.
  intros Hc Hp.
  assert (Hrun : vortex_flow primary fallback context w
            = (Returned r, w1, [Log INFO (ExecutingVector context); Call Primary tr1])).
  { unfold_flow. rewrite Hc, Hp. reflexivity. }
  rewrite Hrun. repeat split; reflexivity.
Qed.

(** C4. When the primary fails with an [Exception] and the fallback
    (present: truthy and callable) returns [r], [vortex_flow] returns [r]
    and raises nothing. *)
Theorem fallback_result_returned primary fallback context p f w e w1 tr1 r w2 tr2 :
  callable primary = Some p ->
  p w = (Raised (Exc e), w1, tr1) ->
  truthy fallback = true ->
  callable fallback = Some f ->
  f w1 = (Returned r, w2, tr2) ->
  vortex_flow primary fallback context w
    = (Returned r, w2,
       [Log INFO (ExecutingVector context); Call Primary tr1;
        Log WARNING (VectorInstability context e); Log INFO InvertingVector;
        Call Fallback tr2; Log INFO StabilizedViaFallback]).
Proof.
  intros Hc Hp Ht Hcf Hf.
  unfold_flow. rewrite Hc, Hp, Ht, Hcf, Hf. reflexivity.
Qed.

(** C2. When the primary fails and the fallback, present, fails with
    [fb_e], [vortex_flow] raises [fb_e], the fallback's error, whatever
    the primary's error [e] was. *)
Theorem fallback_error_raised primary fallback context p f w e w1 tr1 fb_e w2 tr2 :
  callable primary = Some p ->
  p w = (Raised (Exc e), w1, tr1) ->
  truthy fallback = true ->
  callable fallback = Some f ->
  f w1 = (Raised (Exc fb_e), w2, tr2) ->
  vortex_flow primary fallback context w
    = (Raised (Exc fb_e), w2,
       [Log INFO (ExecutingVector context); Call Primary tr1;
        Log WARNING (VectorInstability context e); Log INFO InvertingVector;
        Call Fallback tr2; Log ERROR (FallbackAlsoFailed fb_e)]).
Proof.
  intros Hc Hp Ht Hcf Hf.
  unfold_flow. rewrite Hc, Hp, Ht, Hcf, Hf. reflexivity.
Qed.

(** C6. With [fallback=None], a primary that fails with [e] makes
    [vortex_flow] raise [e] itself: same class, same message, and no
    other error for the missing fallback, which is only logged. *)
Theorem no_fallback_reraises_primary_error primary context p w e w1 tr1 :
  callable primary = Some p ->
  p w = (Raised (Exc e), w1, tr1) ->
  vortex_flow primary PyNone context w
    = (Raised (Exc e), w1,
       [Log INFO (ExecutingVector context); Call Primary tr1;
        Log WARNING (VectorInstability context e); Log ERROR NoFallbackDefined]).
Proof.
  intros Hc Hp.
  unfold_flow. rewrite Hc, Hp. reflexivity.
Qed.

(** C10. The fallback is tested for truth: with any falsy [fallback]
    ([None], [0], the empty string, an object whose [__bool__] is false,
    callable or not) a failing primary gets its own error re-raised, the
    fallback is never called, and the run is the run with [None]. *)
Theorem falsy_fallback_is_no_fallback primary fallback context p w e w1 tr1 :
  truthy fallback = false ->
  callable primary = Some p ->
  p w = (Raised (Exc e), w1, tr1) ->
  vortex_flow primary fallback context w
    = (Raised (Exc e), w1,
       [Log INFO (ExecutingVector context); Call Primary tr1;
        Log WARNING (VectorInstability context e); Log ERROR NoFallbackDefined]) /\
  calls Fallback (trace (vortex_flow primary fallback context w)) = 0%nat /\
  vortex_flow primary fallback context w = vortex_flow primary PyNone context w.
Proof.
  intros Ht Hc Hp.
  assert (Hrun : vortex_flow primary fallback context w
            = (Raised (Exc e), w1,
               [Log INFO (ExecutingVector context); Call Primary tr1;
                Log WARNING (VectorInstability context e);
                Log ERROR NoFallbackDefined])).
  { unfold_flow. rewrite Hc, Hp, Ht. reflexivity. }
  rewrite Hrun. repeat split.
  symmetry. unfold_flow. rewrite Hc, Hp. reflexivity.
Qed.

End FlowClaims.

(** * Properties of the retry loop *)

Section LoopFacts.

Context {World T : Type}.
Variable sleep : Z -> World -> option base_exn * World.
Variable r : Retrying.
Variable fn : @M World T.
Implicit Types (w : World) (retry_state : RetryCallState) (fuel k : nat).

Ltac unfold_loop :=
  cbn [retry_loop];
  unfold try_except_Exception, invoke, bind, sleep_for, raise, outcome,
    world_after, trace in *.

Lemma retry_loop_returned fuel retry_state w a :
  outcome (fn w) = Returned a ->
  retry_loop sleep r fn (S fuel) retry_state w
    = (Returned a, world_after (fn w), [Call Wrapped (trace (fn w))]).
Proof.
  unfold_loop. destruct (fn w) as [[res w1] tr]; cbn.
  intros ->. reflexivity.
Qed.

Lemma retry_loop_not_Exception fuel retry_state w s :
  outcome (fn w) = Raised (Sig s) ->
  retry_loop sleep r fn (S fuel) retry_state w
    = (Raised (Sig s), world_after (fn w), [Call Wrapped (trace (fn w))]).
Proof.
  unfold_loop. destruct (fn w) as [[res w1] tr]; cbn.
  intros ->. reflexivity.
Qed.

Lemma retry_loop_stopped fuel retry_state w e :
  outcome (fn w) = Raised (Exc e) ->
  stop r retry_state = true ->
  retry_loop sleep r fn (S fuel) retry_state w
    = (Raised (Exc (if reraise r then e else RetryError e)),
       world_after (fn w), [Call Wrapped (trace (fn w))]).
Proof.
  unfold_loop. destruct (fn w) as [[res w1] tr]; cbn.
  intros -> ->. reflexivity.
Qed.

Lemma retry_loop_interrupted fuel retry_state w e s :
  outcome (fn w) = Raised (Exc e) ->
  stop r retry_state = false ->
  fst (sleep (wait r retry_state) (world_after (fn w))) = Some s ->
  retry_loop sleep r fn (S fuel) retry_state w
    = (Raised (Sig s),
       snd (sleep (wait r retry_state) (world_after (fn w))),
       [Call Wrapped (trace (fn w)); Sleep (wait r retry_state)]).
Proof.
  unfold_loop. destruct (fn w) as [[res w1] tr]; cbn.
  intros -> ->.
  destruct (sleep (wait r retry_state) w1) as [intr w2]; cbn.
  intros ->. reflexivity.
Qed.

Lemma retry_loop_step fuel retry_state w :
  fails_and_waits sleep r fn retry_state w ->
  retry_loop sleep r fn (S fuel) retry_state w
    = let x := retry_loop sleep r fn fuel
                 (prepare_for_next_attempt (wait r retry_state) retry_state)
                 (snd (sleep (wait r retry_state) (world_after (fn w)))) in
      (outcome x, world_after x,
       Call Wrapped (trace (fn w)) :: Sleep (wait r retry_state) :: trace x).
Proof.
  intros [[e He] [Hstop Hsleep]]. revert He Hsleep.
  unfold_loop. destruct (fn w) as [[res w1] tr]; cbn.
  intros ->. rewrite Hstop.
  destruct (sleep (wait r retry_state) w1) as [intr w2]; cbn.
  intros ->.
  destruct (retry_loop sleep r fn fuel _ w2) as [[res' w3] tr3].
  reflexivity.
Qed.

Lemma first_attempts_fail_head k retry_state w :
  first_attempts_fail sleep r fn (S k) retry_state w ->
  fails_and_waits sleep r fn retry_state w.
Proof. intros H. apply (H 0%nat). lia. Qed.

Lemma first_attempts_fail_tail k retry_state w :
  first_attempts_fail sleep r fn (S k) retry_state w ->
  first_attempts_fail sleep r fn k
    (prepare_for_next_attempt (wait r retry_state) retry_state)
    (snd (sleep (wait r retry_state) (world_after (fn w)))).
Proof. intros H j Hj. apply (H (S j)). lia. Qed.

(** After [k] failed attempts the loop is where [attempt_state] and
    [attempt_world] say, and has produced [waits_trace]. *)
Lemma retry_loop_failing_prefix k : forall fuel retry_state w,
  first_attempts_fail sleep r fn k retry_state w ->
  retry_loop sleep r fn (k + fuel) retry_state w
    = let x := retry_loop sleep r fn fuel (attempt_state r k retry_state)
                 (attempt_world sleep r fn k retry_state w) in
      (outcome x, world_after x,
       waits_trace sleep r fn k retry_state w ++ trace x).
Proof.
  induction k as [|k IH]; intros fuel retry_state w H.
  - cbn. destruct (retry_loop sleep r fn fuel retry_state w) as [[res w1] tr].
    reflexivity.
  - replace (S k + fuel)%nat with (S (k + fuel)) by lia.
    rewrite (retry_loop_step _ _ _ (first_attempts_fail_head _ _ _ H)).
    cbn zeta. rewrite (IH _ _ _ (first_attempts_fail_tail _ _ _ H)).
    reflexivity.
Qed.

Lemma attempt_number_attempt_state k : forall retry_state,
  attempt_number (attempt_state r k retry_state)
    = attempt_number retry_state + Z.of_nat k.
Proof.
  induction k as [|k IH]; intros retry_state.
  - cbn. lia.
  - cbn [attempt_state]. rewrite IH. cbn. lia.
Qed.

Lemma calls_waits_trace k : forall retry_state w,
  calls Wrapped (waits_trace sleep r fn k retry_state w) = k.
Proof.
  induction k as [|k IH]; intros retry_state w; [reflexivity|].
  cbn [waits_trace]. unfold calls in *. cbn. rewrite IH. reflexivity.
Qed.

Lemma sleeps_waits_trace k : forall retry_state w,
  sleeps (waits_trace sleep r fn k retry_state w)
    = map (fun j => wait r (attempt_state r j retry_state)) (seq 0 k).
Proof.
  induction k as [|k IH]; intros retry_state w; [reflexivity|].
  cbn [waits_trace sleeps seq map attempt_state]. f_equal.
  rewrite IH. rewrite <- seq_shift, map_map. reflexivity.
Qed.

End LoopFacts.

(** * Properties of [vortex_task] *)

Lemma stop_vortex_task retries min_wait max_wait retry_state :
  stop (vortex_task retries min_wait max_wait) retry_state
    = (retries <=? attempt_number retry_state).
Proof. reflexivity. Qed.

Lemma wait_vortex_task retries min_wait max_wait retry_state :
  wait (vortex_task retries min_wait max_wait) retry_state
    = backoff_delay retries min_wait max_wait (attempt_number retry_state).
Proof. reflexivity. Qed.

Lemma backoff_delay_eq retries min_wait max_wait i :
  backoff_delay retries min_wait max_wait i
    = Z.max (Z.max 0 (float_round min_wait))
            (Z.min (1 * 2 ^ (i - 1)) (float_round max_wait)).
Proof. reflexivity. Qed.

(** Integers of at most 53 bits, and [2^53] itself, are their own
    floats. *)
Lemma float_round_exact z :
  Z.abs z <= 2 ^ 53 ->
  float_round z = z.
Proof.
  intros Hz. unfold float_round.
  assert (Habs : float_abs (Z.abs z) = Z.abs z).
  { unfold float_abs.
    destruct (Z.eq_dec (Z.abs z) (2 ^ 53)) as [-> | Hne]; [reflexivity|].
    destruct (Z.eq_dec (Z.abs z) 0) as [-> | Hnz]; [reflexivity|].
    assert (Hlog : Z.log2 (Z.abs z) < 53)
      by (apply Z.log2_lt_pow2; lia).
    replace (Z.log2 (Z.abs z) + 1 <=? 53) with true
      by (symmetry; apply Z.leb_le; lia).
    reflexivity. }
  rewrite Habs. lia.
Qed.

Lemma float_does_not_overflow z :
  Z.abs z <= 2 ^ 53 ->
  float_overflows z = false.
Proof.
  intros Hz. unfold float_overflows. rewrite (float_round_exact z Hz).
  apply Z.leb_gt.
  assert (2 ^ 53 < 2 ^ 1024) by (apply Z.pow_lt_mono_r; lia).
  lia.
Qed.

Section TaskFacts.

Context {World T : Type}.
Variable sleep : Z -> World -> option base_exn * World.
Variables retries min_wait max_wait : Z.
Variable fn : @M World T.

Let policy : Retrying := vortex_task retries min_wait max_wait.

Lemma attempt_number_from_first k :
  attempt_number (attempt_state policy k first_attempt) = Z.of_nat k + 1.
Proof.
  rewrite attempt_number_attempt_state.
  unfold first_attempt. cbn [attempt_number]. lia.
Qed.

(** Before the last permitted attempt the policy goes on. *)
Lemma policy_goes_on k w :
  Z.of_nat k + 1 < retries ->
  never_interrupted sleep ->
  (exists e, outcome (fn (attempt_world sleep policy fn k first_attempt w))
               = Raised (Exc e)) ->
  fails_and_waits sleep policy fn
    (attempt_state policy k first_attempt)
    (attempt_world sleep policy fn k first_attempt w).
Proof.
  intros Hk Hsleep Hfail. split; [exact Hfail|]. split.
  - unfold policy. rewrite stop_vortex_task.
    fold policy. rewrite attempt_number_from_first. apply Z.leb_gt. lia.
  - apply Hsleep.
Qed.

Lemma sleeps_of_waits k w :
  sleeps (waits_trace sleep policy fn k first_attempt w)
    = map (fun j => backoff_delay retries min_wait max_wait (Z.of_nat j))
          (seq 1 k).
Proof.
  rewrite sleeps_waits_trace. rewrite <- seq_shift, map_map.
  apply map_ext. intros j. unfold policy at 1. rewrite wait_vortex_task.
  fold policy. rewrite attempt_number_from_first. f_equal. lia.
Qed.

(** The run of an operation that fails on each of the [retries] attempts. *)
Lemma exhausted_run fuel w :
  1 <= retries ->
  always_fails fn ->
  never_interrupted sleep ->
  (Z.to_nat retries <= fuel)%nat ->
  let k := (Z.to_nat retries - 1)%nat in
  let last_attempt := fn (attempt_world sleep policy fn k first_attempt w) in
  exists e,
    outcome last_attempt = Raised (Exc e) /\
    retry_call sleep policy fn fuel w
      = (Raised (Exc e), world_after last_attempt,
         waits_trace sleep policy fn k first_attempt w
           ++ [Call Wrapped (trace last_attempt)]).
Proof.
  intros Hn Hfn Hsleep Hfuel k last_attempt.
  destruct (Hfn (attempt_world sleep policy fn k first_attempt w)) as [e He].
  exists e. split; [exact He|].
  unfold retry_call.
  replace fuel with (k + S (fuel - S k))%nat by (unfold k; lia).
  rewrite retry_loop_failing_prefix.
  - rewrite (retry_loop_stopped _ _ _ _ _ _ e He).
    + reflexivity.
    + unfold policy. rewrite stop_vortex_task. fold policy.
      rewrite attempt_number_from_first. apply Z.leb_le. unfold k. lia.
  - intros j Hj. apply policy_goes_on.
    + unfold k in Hj. lia.
    + exact Hsleep.
    + apply Hfn.
Qed.

(** C1. With [retries = N >= 1], an operation that raises an
    [Exception] at every invocation is invoked exactly [N] times, and
    the call then raises the very error of the [N]-th attempt: the same
    class and message, not a [RetryError] around it. *)
Theorem exhausted_retries_reraise_last_error fuel w :
  1 <= retries ->
  always_fails fn ->
  never_interrupted sleep ->
  (Z.to_nat retries <= fuel)%nat ->
  let run := retry_call sleep (vortex_task retries min_wait max_wait) fn fuel w in
  let nth_attempt :=
    fn (attempt_world sleep (vortex_task retries min_wait max_wait) fn
          (Z.to_nat retries - 1) first_attempt w) in
  calls Wrapped (trace run) = Z.to_nat retries /\
  exists e,
    outcome nth_attempt = Raised (Exc e) /\
    outcome run = Raised (Exc e) /\
    world_after run = world_after nth_attempt.
Proof.
  intros Hn Hfn Hsleep Hfuel run nth_attempt.
  destruct (exhausted_run fuel w Hn Hfn Hsleep Hfuel) as [e [He Hrun]].
  fold policy in run, nth_attempt. subst run nth_attempt.
  rewrite Hrun. split.
  - cbn [trace snd]. rewrite calls_app, calls_waits_trace. cbn. lia.
  - exists e. repeat split. exact He.
Qed.

(** C7. With [retries = N], an operation that fails on attempts
    [1..K-1] and returns [res] on attempt [K <= N] is invoked exactly
    [K] times; the call returns [res] in the world attempt [K] left,
    after [K-1] waits, and the call of attempt [K] is the last event:
    no wait and no attempt follows it. *)
Theorem success_on_attempt_K_stops_retrying (K : nat) res fuel w :
  (1 <= K)%nat ->
  Z.of_nat K <= retries ->
  never_interrupted sleep ->
  (forall j, (j < K - 1)%nat ->
     exists e,
       outcome (fn (attempt_world sleep (vortex_task retries min_wait max_wait)
                      fn j first_attempt w)) = Raised (Exc e)) ->
  outcome (fn (attempt_world sleep (vortex_task retries min_wait max_wait)
                 fn (K - 1) first_attempt w)) = Returned res ->
  (K <= fuel)%nat ->
  let run := retry_call sleep (vortex_task retries min_wait max_wait) fn fuel w in
  let kth_attempt :=
    fn (attempt_world sleep (vortex_task retries min_wait max_wait) fn
          (K - 1) first_attempt w) in
  outcome run = Returned res /\
  world_after run = world_after kth_attempt /\
  calls Wrapped (trace run) = K /\
  List.length (sleeps (trace run)) = (K - 1)%nat /\
  exists before, trace run = before ++ [Call Wrapped (trace kth_attempt)].
Proof.
  intros HK HKN Hsleep Hfail Hok Hfuel run kth_attempt.
  fold policy in Hfail, Hok, run, kth_attempt.
  assert (Hrun : run = (Returned res, world_after kth_attempt,
                        waits_trace sleep policy fn (K - 1) first_attempt w
                          ++ [Call Wrapped (trace kth_attempt)])).
  { subst run. unfold retry_call.
    replace fuel with ((K - 1) + S (fuel - K))%nat by lia.
    rewrite retry_loop_failing_prefix.
    - rewrite (retry_loop_returned _ _ _ _ _ _ res Hok). reflexivity.
    - intros j Hj. apply policy_goes_on; [lia | exact Hsleep | apply Hfail, Hj]. }
  rewrite Hrun. cbn [outcome world_after trace fst snd].
  repeat split.
  - rewrite calls_app, calls_waits_trace. cbn. lia.
  - rewrite sleeps_app, sleeps_of_waits, length_app, length_map, length_seq.
    cbn. lia.
  - eexists. reflexivity.
Qed.

End TaskFacts.

Section Backoff.

Context {World T : Type}.

(** C3, amended. [vortex_task] passes [min_wait] as the floor of
    [wait_exponential] and leaves its multiplier at 1.  With
    [0 <= min_wait <= max_wait <= 2^53], so that both bounds are their
    own floats, the policy is built without error and the delay after
    failing attempt [i] is [2^(i-1)] seconds clamped into
    [[min_wait, max_wait]].  It lies in that interval, never decreases
    with [i], and these are the waits of a run in which every attempt
    fails. *)
Theorem backoff_delay_is_clamped_power_of_two
        (sleep : Z -> World -> option base_exn * World) (fn : @M World T)
        retries min_wait max_wait i fuel w :
  0 <= min_wait <= max_wait ->
  max_wait <= 2 ^ 53 ->
  1 <= i ->
  1 <= retries ->
  always_fails fn ->
  never_interrupted sleep ->
  (Z.to_nat retries <= fuel)%nat ->
  call_vortex_task retries min_wait max_wait
    = Returned (vortex_task retries min_wait max_wait) /\
  backoff_delay retries min_wait max_wait i
    = Z.max min_wait (Z.min (2 ^ (i - 1)) max_wait) /\
  min_wait <= backoff_delay retries min_wait max_wait i <= max_wait /\
  backoff_delay retries min_wait max_wait i
    <= backoff_delay retries min_wait max_wait (i + 1) /\
  sleeps (trace (retry_call sleep (vortex_task retries min_wait max_wait) fn fuel w))
    = map (fun j => backoff_delay retries min_wait max_wait (Z.of_nat j))
          (seq 1 (Z.to_nat retries - 1)).
Proof.
  intros Hmm Hcap Hi Hn Hfn Hsleep Hfuel.
  assert (Hmin : Z.abs min_wait <= 2 ^ 53) by lia.
  assert (Hmax : Z.abs max_wait <= 2 ^ 53) by lia.
  split.
  { unfold call_vortex_task, vortex_task_raises.
    rewrite (float_does_not_overflow _ Hmin), (float_does_not_overflow _ Hmax).
    reflexivity. }
  rewrite !backoff_delay_eq.
  rewrite (float_round_exact _ Hmin), (float_round_exact _ Hmax).
  assert (Hpow : 2 ^ (i - 1) <= 2 ^ (i + 1 - 1))
    by (apply Z.pow_le_mono_r; lia).
  repeat split; try lia.
  destruct (exhausted_run sleep retries min_wait max_wait fn fuel w
              Hn Hfn Hsleep Hfuel) as [e [_ Hrun]].
  rewrite Hrun. cbn [trace snd].
  rewrite sleeps_app, sleeps_of_waits. cbn [sleeps].
  rewrite app_nil_r. apply map_ext. intros j.
  rewrite backoff_delay_eq.
  rewrite (float_round_exact _ Hmin), (float_round_exact _ Hmax). reflexivity.
Qed.

End Backoff.

(** * Configuration is not validated *)

Section Unchecked.

Context {World T : Type}.
Implicit Types (primary fallback : @pyval World T) (f : @M World T).

(** C8, amended. Nothing is checked and no [ConfigurationError]
    exists.  With [retries < 1] the operation is still invoked, once,
    and what it returns or raises is what the call returns or raises.
    A primary that is not callable makes the call attempt raise
    [TypeError] inside the [try] of [vortex_flow], which handles it as a
    failure of the primary: a falsy fallback gets the [TypeError]
    re-raised, a present fallback is invoked and its result returned. *)
Theorem invalid_configuration_is_not_rejected
        (sleep : Z -> World -> option base_exn * World) (fn : @M World T)
        retries min_wait max_wait fuel primary fallback context f w res w1 tr1 :
  retries < 1 ->
  callable primary = None ->
  (retry_call sleep (vortex_task retries min_wait max_wait) fn (S fuel) w
     = (outcome (fn w), world_after (fn w), [Call Wrapped (trace (fn w))])) /\
  (truthy fallback = false ->
   vortex_flow primary fallback context w
     = (Raised (Exc (not_callable primary)), w,
        [Log INFO (ExecutingVector context);
         Log WARNING (VectorInstability context (not_callable primary));
         Log ERROR NoFallbackDefined])) /\
  (truthy fallback = true ->
   callable fallback = Some f ->
   f w = (Returned res, w1, tr1) ->
   vortex_flow primary fallback context w
     = (Returned res, w1,
        [Log INFO (ExecutingVector context);
         Log WARNING (VectorInstability context (not_callable primary));
         Log INFO InvertingVector; Call Fallback tr1;
         Log INFO StabilizedViaFallback])).
Proof.
  intros Hn Hc. repeat split.
  - unfold retry_call.
    destruct (outcome (fn w)) as [a | [e | s] | ] eqn:Hfn.
    + apply retry_loop_returned, Hfn.
    + rewrite (retry_loop_stopped _ _ _ _ _ _ e Hfn); [reflexivity|].
      rewrite stop_vortex_task. apply Z.leb_le.
      unfold first_attempt. cbn [attempt_number]. lia.
    + apply retry_loop_not_Exception, Hfn.
    + cbn [retry_loop].
      unfold try_except_Exception, invoke, outcome, world_after, trace in *.
      destruct (fn w) as [[r0 w0] tr0]. cbn in Hfn. subst r0. reflexivity.
  - intros Ht. unfold_flow. rewrite Hc, Ht. reflexivity.
  - intros Ht Hcf Hf. unfold_flow. rewrite Hc, Ht, Hcf. cbn.
    rewrite Hf. reflexivity.
Qed.

End Unchecked.

(** * Cancellation *)

Section Cancellation.

Context {World T : Type}.
Implicit Types (primary fallback : @pyval World T) (p : @M World T).

(** C9. Cancellation reaches the code as [CancelledError], which is no
    [Exception], raised into the operation in flight or into the wait.
    (1) [vortex_flow] lets it through: the call ends with it, in the
    world the primary left, and nothing is logged or called after the
    primary; in particular the fallback is not invoked.
    (2) When the primary is a call retried under any policy, the first
    [k] attempts failed, and the cancellation arrives during attempt
    [k+1] or during the wait after it, then [vortex_flow] ends with it,
    the operation has been invoked exactly [k+1] times, and the fallback
    is not invoked. *)
Theorem cancellation_takes_precedence
        (sleep : Z -> World -> option base_exn * World) (r : Retrying)
        (fn : @M World T) (k fuel : nat)
        primary fallback context p w s w1 tr1 :
  (callable primary = Some p ->
   p w = (Raised (Sig s), w1, tr1) ->
   vortex_flow primary fallback context w
     = (Raised (Sig s), w1, [Log INFO (ExecutingVector context); Call Primary tr1]) /\
   calls Fallback (trace (vortex_flow primary fallback context w)) = 0%nat) /\
  (first_attempts_fail sleep r fn k first_attempt w ->
   cancelled_in_attempt sleep r fn (attempt_state r k first_attempt)
     (attempt_world sleep r fn k first_attempt w) s ->
   (k < fuel)%nat ->
   let retried := retry_call sleep r fn fuel in
   outcome (retried w) = Raised (Sig s) /\
   calls Wrapped (trace (retried w)) = S k /\
   vortex_flow (PyFunction retried) fallback context w
     = (Raised (Sig s), world_after (retried w),
        [Log INFO (ExecutingVector context); Call Primary (trace (retried w))]) /\
   calls Fallback (trace (vortex_flow (PyFunction retried) fallback context w))
     = 0%nat).
Proof.
  split.
  - intros Hc Hp.
    assert (Hrun : vortex_flow primary fallback context w
              = (Raised (Sig s), w1,
                 [Log INFO (ExecutingVector context); Call Primary tr1])).
    { unfold_flow. rewrite Hc, Hp. reflexivity. }
    rewrite Hrun. split; reflexivity.
  - intros Hfail Hcancel Hfuel retried.
    assert (Hretry : outcome (retried w) = Raised (Sig s) /\
                     calls Wrapped (trace (retried w)) = S k).
    { subst retried. unfold retry_call.
      replace fuel with (k + S (fuel - S k))%nat by lia.
      rewrite (retry_loop_failing_prefix _ _ _ _ _ _ _ Hfail). cbn zeta.
      destruct Hcancel as [Hflight | [[e He] [Hstop Hwait]]].
      + rewrite (retry_loop_not_Exception _ _ _ _ _ _ s Hflight).
        cbn [outcome world_after trace fst snd]. split; [reflexivity|].
        rewrite calls_app, calls_waits_trace. cbn. lia.
      + rewrite (retry_loop_interrupted _ _ _ _ _ _ e s He Hstop Hwait).
        cbn [outcome world_after trace fst snd]. split; [reflexivity|].
        rewrite calls_app, calls_waits_trace. cbn. lia. }
    destruct Hretry as [Hout Hcalls].
    split; [exact Hout|]. split; [exact Hcalls|].
    assert (Hrun : vortex_flow (PyFunction retried) fallback context w
              = (Raised (Sig s), world_after (retried w),
                 [Log INFO (ExecutingVector context);
                  Call Primary (trace (retried w))])).
    { unfold_flow. cbn [callable].
      destruct (retried w) as [[res w2] tr2]. cbn in Hout. subst res.
      reflexivity. }
    rewrite Hrun. split; reflexivity.
Qed.

End Cancellation.

(** * The scenarios of the specification, run *)

Module Runs.

Import Scenario.

(** A primary that raises [ConnectionError] at every call, under
    [vortex_task(retries=3)], with a fallback that returns
    ["LOCAL_BACKUP"]: three invocations, two waits, then the fallback. *)
Example exhausted_primary_then_fallback :
  vortex_flow
    (PyFunction (retry_call sleep vortex_task_default raises_ConnectionError 3))
    backup "Data Synchronization" start
  = (Returned "LOCAL_BACKUP",
     {| invocations := 4; clock := 3; cancel_at := None |},
     [Log INFO (ExecutingVector "Data Synchronization");
      Call Primary [Call Wrapped []; Sleep 1; Call Wrapped []; Sleep 2;
                    Call Wrapped []];
      Log WARNING (VectorInstability "Data Synchronization" ConnectionError);
      Log INFO InvertingVector;
      Call Fallback [];
      Log INFO StabilizedViaFallback]).
Proof. reflexivity. Qed.

Example primary_first_time :
  vortex_flow cloud backup "Data Synchronization" start
  = (Returned "CLOUD_DATA",
     {| invocations := 1; clock := 0; cancel_at := None |},
     [Log INFO (ExecutingVector "Data Synchronization"); Call Primary []]).
Proof. reflexivity. Qed.

Example too_little_fuel :
  outcome (retry_call sleep (vortex_task 5 1 4) (succeeds_on 3 "ok") 2 start)
  = OutOfFuel.
Proof. reflexivity. Qed.

(** With [min_wait=0] the first wait is one second, not [min_wait]. *)
Example first_wait_with_zero_floor :
  sleeps (trace (retry_call sleep (vortex_task 5 0 4) raises_ConnectionError 5 start))
  = [1; 2; 4; 4].
Proof. reflexivity. Qed.

(** Above [2^53] the floor is the float of [min_wait]: with
    [min_wait = 2^53 + 1] every wait lasts [2^53] seconds, one less than
    [min_wait]. *)
Example floor_is_rounded_above_2_53 :
  float (2 ^ 53 + 1) = Returned (2 ^ 53) /\
  backoff_delay 3 (2 ^ 53 + 1) (2 ^ 60) 1 = 2 ^ 53 /\
  sleeps (trace (retry_call sleep (vortex_task 3 (2 ^ 53 + 1) (2 ^ 60))
                   raises_ConnectionError 3 start))
    = [2 ^ 53; 2 ^ 53].
Proof. repeat split; vm_compute; reflexivity. Qed.

(** A bound of [2^1024] seconds has no float: [vortex_task] raises while
    it builds the policy. *)
Example no_policy_for_a_bound_without_float :
  call_vortex_task 3 1 (2 ^ 1024) = Raised (Exc OverflowError) /\
  call_vortex_task 3 (2 ^ 1024) 4 = Raised (Exc OverflowError) /\
  call_vortex_task 3 1 4 = Returned (vortex_task 3 1 4).
Proof. repeat split; vm_compute; reflexivity. Qed.

(** C3, refuted as stated. With [min_wait=3, max_wait=10] the waits
    after attempts 1 and 2 are 3 and 3 seconds; the formula
    [min(max_delay, min_delay * 2^(i-1))] asks 3 and 6. *)
Lemma backoff_is_not_min_delay_doubling :
  sleeps (trace (retry_call sleep (vortex_task 3 3 10) raises_ConnectionError 3 start))
    = [3; 3] /\
  map (spec_delay 3 10) [1; 2] = [3; 6] /\
  backoff_delay 3 3 10 2 <> spec_delay 3 10 2.
Proof.
  repeat split. vm_compute. discriminate.
Qed.

(** C8, refuted as stated. [vortex_task(retries=0)] calls the
    operation and returns its result; [vortex_flow] with the integer 5
    as primary runs the fallback and returns its result.  Neither run
    raises a [ConfigurationError], and each has called an operation. *)
Lemma no_configuration_error :
  let task := retry_call sleep (vortex_task 0 1 4) (returns "CLOUD_DATA") 1 start in
  let flow := vortex_flow (PyInt 5) backup "Data Synchronization" start in
  (outcome task = Returned "CLOUD_DATA" /\ calls Wrapped (trace task) = 1%nat /\
   ~ fails_fast task) /\
  (outcome flow = Returned "LOCAL_BACKUP" /\ calls Fallback (trace flow) = 1%nat /\
   ~ fails_fast flow).
Proof.
  cbv zeta. repeat split.
  - intros [[msg Hmsg] _]. vm_compute in Hmsg. discriminate.
  - intros [[msg Hmsg] _]. vm_compute in Hmsg. discriminate.
Qed.

End Runs.

(** * The theorems at the scenarios' inputs *)

Module Instances.

Import Scenario.

Lemma sleep_never_interrupted : never_interrupted sleep.
Proof. intros seconds w. reflexivity. Defined.

Lemma raises_ConnectionError_always_fails : always_fails raises_ConnectionError.
Proof. intros w. exists ConnectionError. reflexivity. Defined.

Lemma primary_success_skips_fallback_at_cloud :
  callable cloud = Some (returns "CLOUD_DATA") /\
  returns "CLOUD_DATA" start = (Returned "CLOUD_DATA", tick start, []) /\
  vortex_flow cloud backup "ctx" start
    = (Returned "CLOUD_DATA", tick start,
       [Log INFO (ExecutingVector "ctx"); Call Primary []]) /\
  calls Fallback (trace (vortex_flow cloud backup "ctx" start)) = 0%nat /\
  calls Primary (trace (vortex_flow cloud backup "ctx" start)) = 1%nat.
Proof.
  split; [reflexivity|]. split; [reflexivity|].
  apply (primary_success_skips_fallback cloud backup "ctx"
           (returns "CLOUD_DATA") start "CLOUD_DATA" (tick start) []);
    reflexivity.
Defined.

Lemma fallback_result_returned_at_backup :
  callable unreachable = Some raises_ConnectionError /\
  raises_ConnectionError start = (Raised (Exc ConnectionError), tick start, []) /\
  truthy backup = true /\
  callable backup = Some (returns "LOCAL_BACKUP") /\
  returns "LOCAL_BACKUP" (tick start)
    = (Returned "LOCAL_BACKUP", tick (tick start), []) /\
  vortex_flow unreachable backup "ctx" start
    = (Returned "LOCAL_BACKUP", tick (tick start),
       [Log INFO (ExecutingVector "ctx"); Call Primary [];
        Log WARNING (VectorInstability "ctx" ConnectionError);
        Log INFO InvertingVector; Call Fallback [];
        Log INFO StabilizedViaFallback]).
Proof.
  repeat (split; [reflexivity|]).
  apply (fallback_result_returned unreachable backup "ctx"
           raises_ConnectionError (returns "LOCAL_BACKUP") start
           ConnectionError (tick start) [] "LOCAL_BACKUP" (tick (tick start)) []);
    reflexivity.
Defined.

Lemma fallback_error_raised_at_broken_backup :
  callable unreachable = Some raises_ConnectionError /\
  raises_ConnectionError start = (Raised (Exc ConnectionError), tick start, []) /\
  truthy (PyFunction broken_backup) = true /\
  callable (PyFunction broken_backup) = Some broken_backup /\
  broken_backup (tick start) = (Raised (Exc DiskError), tick (tick start), []) /\
  vortex_flow unreachable (PyFunction broken_backup) "ctx" start
    = (Raised (Exc DiskError), tick (tick start),
       [Log INFO (ExecutingVector "ctx"); Call Primary [];
        Log WARNING (VectorInstability "ctx" ConnectionError);
        Log INFO InvertingVector; Call Fallback [];
        Log ERROR (FallbackAlsoFailed DiskError)]).
Proof.
  repeat (split; [reflexivity|]).
  apply (fallback_error_raised unreachable (PyFunction broken_backup) "ctx"
           raises_ConnectionError broken_backup start
           ConnectionError (tick start) [] DiskError (tick (tick start)) []);
    reflexivity.
Defined.

Lemma no_fallback_reraises_primary_error_at_unreachable :
  callable unreachable = Some raises_ConnectionError /\
  raises_ConnectionError start = (Raised (Exc ConnectionError), tick start, []) /\
  vortex_flow unreachable PyNone "ctx" start
    = (Raised (Exc ConnectionError), tick start,
       [Log INFO (ExecutingVector "ctx"); Call Primary [];
        Log WARNING (VectorInstability "ctx" ConnectionError);
        Log ERROR NoFallbackDefined]).
Proof.
  repeat (split; [reflexivity|]).
  apply (no_fallback_reraises_primary_error unreachable "ctx"
           raises_ConnectionError start ConnectionError (tick start) []);
    reflexivity.
Defined.

Lemma falsy_fallback_is_no_fallback_at_falsy_callable :
  truthy falsy_callable = false /\
  callable unreachable = Some raises_ConnectionError /\
  raises_ConnectionError start = (Raised (Exc ConnectionError), tick start, []) /\
  vortex_flow unreachable falsy_callable "ctx" start
    = (Raised (Exc ConnectionError), tick start,
       [Log INFO (ExecutingVector "ctx"); Call Primary [];
        Log WARNING (VectorInstability "ctx" ConnectionError);
        Log ERROR NoFallbackDefined]) /\
  calls Fallback (trace (vortex_flow unreachable falsy_callable "ctx" start)) = 0%nat /\
  vortex_flow unreachable falsy_callable "ctx" start
    = vortex_flow unreachable PyNone "ctx" start.
Proof.
  repeat (split; [reflexivity|]).
  apply (falsy_fallback_is_no_fallback unreachable falsy_callable "ctx"
           raises_ConnectionError start ConnectionError (tick start) []);
    reflexivity.
Defined.

Lemma exhausted_retries_reraise_last_error_at_3 :
  1 <= 3 /\
  always_fails raises_ConnectionError /\
  never_interrupted sleep /\
  (Z.to_nat 3 <= 3)%nat /\
  calls Wrapped
    (trace (retry_call sleep (vortex_task 3 1 4) raises_ConnectionError 3 start))
    = Z.to_nat 3 /\
  exists e,
    outcome (raises_ConnectionError
               (attempt_world sleep (vortex_task 3 1 4) raises_ConnectionError
                  (Z.to_nat 3 - 1) first_attempt start)) = Raised (Exc e) /\
    outcome (retry_call sleep (vortex_task 3 1 4) raises_ConnectionError 3 start)
      = Raised (Exc e) /\
    world_after (retry_call sleep (vortex_task 3 1 4) raises_ConnectionError 3 start)
      = world_after
          (raises_ConnectionError
             (attempt_world sleep (vortex_task 3 1 4) raises_ConnectionError
                (Z.to_nat 3 - 1) first_attempt start)).
Proof.
  split; [lia|].
  split; [exact raises_ConnectionError_always_fails|].
  split; [exact sleep_never_interrupted|].
  split; [cbn; lia|].
  apply (exhausted_retries_reraise_last_error sleep 3 1 4
           raises_ConnectionError 3%nat start).
  - lia.
  - exact raises_ConnectionError_always_fails.
  - exact sleep_never_interrupted.
  - cbn. lia.
Defined.

Lemma success_on_attempt_K_stops_retrying_at_2_of_3 :
  (1 <= 2)%nat /\
  Z.of_nat 2 <= 3 /\
  never_interrupted sleep /\
  (forall j, (j < 2 - 1)%nat ->
     exists e,
       outcome (succeeds_on 2 "CLOUD_DATA"
                  (attempt_world sleep (vortex_task 3 1 4)
                     (succeeds_on 2 "CLOUD_DATA") j first_attempt start))
         = Raised (Exc e)) /\
  outcome (succeeds_on 2 "CLOUD_DATA"
             (attempt_world sleep (vortex_task 3 1 4)
                (succeeds_on 2 "CLOUD_DATA") (2 - 1) first_attempt start))
    = Returned "CLOUD_DATA" /\
  (2 <= 5)%nat /\
  outcome (retry_call sleep (vortex_task 3 1 4) (succeeds_on 2 "CLOUD_DATA") 5 start)
    = Returned "CLOUD_DATA" /\
  calls Wrapped
    (trace (retry_call sleep (vortex_task 3 1 4) (succeeds_on 2 "CLOUD_DATA") 5 start))
    = 2%nat /\
  sleeps
    (trace (retry_call sleep (vortex_task 3 1 4) (succeeds_on 2 "CLOUD_DATA") 5 start))
    = [1].
Proof.
  assert (Hfail : forall j, (j < 2 - 1)%nat ->
     exists e,
       outcome (succeeds_on 2 "CLOUD_DATA"
                  (attempt_world sleep (vortex_task 3 1 4)
                     (succeeds_on 2 "CLOUD_DATA") j first_attempt start))
         = Raised (Exc e)).
  { intros j Hj. assert (j = 0%nat) as -> by lia.
    exists ConnectionError. reflexivity. }
  split; [lia|]. split; [lia|].
  split; [exact sleep_never_interrupted|].
  split; [exact Hfail|].
  split; [reflexivity|]. split; [lia|].
  destruct (success_on_attempt_K_stops_retrying sleep 3 1 4
              (succeeds_on 2 "CLOUD_DATA") 2 "CLOUD_DATA" 5 start
              ltac:(lia) ltac:(lia) sleep_never_interrupted Hfail eq_refl ltac:(lia))
    as [Hout [_ [Hcalls _]]].
  split; [exact Hout|]. split; [exact Hcalls|]. reflexivity.
Defined.

Lemma backoff_delay_is_clamped_power_of_two_at_defaults :
  0 <= 1 <= 4 /\
  4 <= 2 ^ 53 /\
  1 <= 3 /\
  1 <= 5 /\
  always_fails raises_ConnectionError /\
  never_interrupted sleep /\
  (Z.to_nat 5 <= 5)%nat /\
  call_vortex_task 5 1 4 = Returned (vortex_task 5 1 4) /\
  backoff_delay 5 1 4 3 = Z.max 1 (Z.min (2 ^ (3 - 1)) 4) /\
  1 <= backoff_delay 5 1 4 3 <= 4 /\
  backoff_delay 5 1 4 3 <= backoff_delay 5 1 4 (3 + 1) /\
  sleeps (trace (retry_call sleep (vortex_task 5 1 4) raises_ConnectionError 5 start))
    = map (fun j => backoff_delay 5 1 4 (Z.of_nat j)) (seq 1 (Z.to_nat 5 - 1)).
Proof.
  split; [lia|]. split; [lia|]. split; [lia|]. split; [lia|].
  split; [exact raises_ConnectionError_always_fails|].
  split; [exact sleep_never_interrupted|].
  split; [cbn; lia|].
  apply (backoff_delay_is_clamped_power_of_two sleep raises_ConnectionError
           5 1 4 3 5%nat start).
  - lia.
  - lia.
  - lia.
  - lia.
  - exact raises_ConnectionError_always_fails.
  - exact sleep_never_interrupted.
  - cbn. lia.
Defined.

Lemma invalid_configuration_is_not_rejected_at_zero_retries :
  0 < 1 /\
  callable (PyInt 5 : @pyval world string) = None /\
  retry_call sleep (vortex_task 0 1 4) raises_ConnectionError 1 start
    = (Raised (Exc ConnectionError), tick start, [Call Wrapped []]) /\
  @vortex_flow world string (PyInt 5) PyNone "ctx" start
    = (Raised (Exc (Exn "TypeError" "'int' object is not callable")), start,
       [Log INFO (ExecutingVector "ctx");
        Log WARNING (VectorInstability "ctx"
                       (Exn "TypeError" "'int' object is not callable"));
        Log ERROR NoFallbackDefined]) /\
  vortex_flow (PyInt 5) backup "ctx" start
    = (Returned "LOCAL_BACKUP", tick start,
       [Log INFO (ExecutingVector "ctx");
        Log WARNING (VectorInstability "ctx"
                       (Exn "TypeError" "'int' object is not callable"));
        Log INFO InvertingVector; Call Fallback [];
        Log INFO StabilizedViaFallback]).
Proof.
  split; [lia|]. split; [reflexivity|].
  destruct (invalid_configuration_is_not_rejected sleep raises_ConnectionError
              0 1 4 0%nat (PyInt 5) PyNone "ctx" (returns "LOCAL_BACKUP")
              start "LOCAL_BACKUP" (tick start) [] ltac:(lia) eq_refl)
    as [Htask [Hnone _]].
  destruct (invalid_configuration_is_not_rejected sleep raises_ConnectionError
              0 1 4 0%nat (PyInt 5) backup "ctx" (returns "LOCAL_BACKUP")
              start "LOCAL_BACKUP" (tick start) [] ltac:(lia) eq_refl)
    as [_ [_ Hbackup]].
  split; [exact Htask|].
  split; [exact (Hnone eq_refl)|].
  exact (Hbackup eq_refl eq_refl eq_refl).
Defined.

Lemma first_attempt_fails_before_cancellation :
  first_attempts_fail cancellable_sleep (vortex_task 5 1 4)
    raises_ConnectionError 1 first_attempt cancelled_at_2.
Proof.
  intros j Hj. assert (j = 0%nat) as -> by lia.
  split; [exists ConnectionError; reflexivity|].
  split; reflexivity.
Defined.

Lemma cancelled_during_second_wait :
  cancelled_in_attempt cancellable_sleep (vortex_task 5 1 4) raises_ConnectionError
    (attempt_state (vortex_task 5 1 4) 1 first_attempt)
    (attempt_world cancellable_sleep (vortex_task 5 1 4) raises_ConnectionError
       1 first_attempt cancelled_at_2)
    CancelledError.
Proof.
  right. split; [exists ConnectionError; reflexivity|].
  split; reflexivity.
Defined.

Lemma cancellation_takes_precedence_at_second_wait :
  (callable (PyFunction cancelled_in_flight) = Some cancelled_in_flight /\
   cancelled_in_flight cancelled_at_2
     = (Raised (Sig CancelledError), tick cancelled_at_2, []) /\
   vortex_flow (PyFunction cancelled_in_flight) backup "ctx" cancelled_at_2
     = (Raised (Sig CancelledError), tick cancelled_at_2,
        [Log INFO (ExecutingVector "ctx"); Call Primary []])) /\
  (first_attempts_fail cancellable_sleep (vortex_task 5 1 4)
     raises_ConnectionError 1 first_attempt cancelled_at_2 /\
   cancelled_in_attempt cancellable_sleep (vortex_task 5 1 4) raises_ConnectionError
     (attempt_state (vortex_task 5 1 4) 1 first_attempt)
     (attempt_world cancellable_sleep (vortex_task 5 1 4) raises_ConnectionError
        1 first_attempt cancelled_at_2)
     CancelledError /\
   (1 < 9)%nat /\
   vortex_flow
     (PyFunction (retry_call cancellable_sleep (vortex_task 5 1 4)
                    raises_ConnectionError 9))
     backup "ctx" cancelled_at_2
     = (Raised (Sig CancelledError),
        {| invocations := 2; clock := 2; cancel_at := Some 2 |},
        [Log INFO (ExecutingVector "ctx");
         Call Primary [Call Wrapped []; Sleep 1; Call Wrapped []; Sleep 2]])).
Proof.
  destruct (cancellation_takes_precedence cancellable_sleep (vortex_task 5 1 4)
              raises_ConnectionError 1 9
              (PyFunction cancelled_in_flight) backup "ctx" cancelled_in_flight
              cancelled_at_2 CancelledError (tick cancelled_at_2) [])
    as [Hflow Hretry].
  split.
  - split; [reflexivity|]. split; [reflexivity|].
    exact (proj1 (Hflow eq_refl eq_refl)).
  - split; [exact first_attempt_fails_before_cancellation|].
    split; [exact cancelled_during_second_wait|].
    split; [lia|].
    destruct (Hretry first_attempt_fails_before_cancellation
                cancelled_during_second_wait ltac:(lia)) as [_ [_ [Hrun _]]].
    exact Hrun.
Defined.

End Instances.

(** * Further properties of [vortex_flow] *)

(** Case analysis on everything a run of [vortex_flow] branches on. *)
Ltac flow_cases :=
  unfold_flow; unfold outcome, world_after, trace;
  repeat (match goal with
          | |- context [callable ?v] => is_var v; destruct (callable v)
          | |- context [truthy ?v] => is_var v; destruct (truthy v)
          | |- context [match ?f ?w with _ => _ end] =>
              is_var f; is_var w;
              destruct (f w) as [[[? | [? | ?] | ] ?] ?] eqn:?
          end; cbn).

(** Rewrites with the runs [flow_cases] has named. *)
Ltac use_runs :=
  repeat match goal with
         | H : ?f ?w = (_, _, _) |- _ => try rewrite H; clear H
         end;
  cbn.

Section FlowInvariants.

Context {World T : Type}.
Implicit Types (primary fallback : @pyval World T) (p f : @M World T).
Implicit Types (w : World) (r : T) (e fb_e : exn) (context : string).

(** X1. The controller retries nothing: whatever the two arguments are, the
    primary is called at most once and the fallback at most once, and the
    fallback is called only when it is truthy and the call of the primary
    raised an [Exception]. *)
Theorem vortex_flow_calls_each_at_most_once primary fallback context w :
  (calls Primary (trace (vortex_flow primary fallback context w)) <= 1)%nat /\
  (calls Fallback (trace (vortex_flow primary fallback context w)) <= 1)%nat /\
  (calls Fallback (trace (vortex_flow primary fallback context w)) = 1%nat ->
   truthy fallback = true /\
   exists e, outcome (await_call Primary primary w) = Raised (Exc e)).
Proof.
  flow_cases; cbn;
    (split; [lia|]); (split; [lia|]);
    intros H; try discriminate H;
    (split; [reflexivity | eexists; reflexivity]).
Qed.

(** X2. A value returned by [vortex_flow] is a value an operation returned:
    the primary's, or, after the call of the primary raised an
    [Exception], that of a truthy and callable fallback run in the world
    the primary left.  The controller has no default value, and it leaves
    the world as that operation left it. *)
Theorem vortex_flow_returns_only_what_an_operation_returned
        primary fallback context w r :
  outcome (vortex_flow primary fallback context w) = Returned r ->
  (exists p,
     callable primary = Some p /\
     outcome (p w) = Returned r /\
     world_after (vortex_flow primary fallback context w) = world_after (p w)) \/
  (exists e f,
     outcome (await_call Primary primary w) = Raised (Exc e) /\
     truthy fallback = true /\
     callable fallback = Some f /\
     outcome (f (world_after (await_call Primary primary w))) = Returned r /\
     world_after (vortex_flow primary fallback context w)
       = world_after (f (world_after (await_call Primary primary w)))).
Proof.
  flow_cases; intros H; try discriminate H; injection H as ->;
    first [ left; eexists; (split; [reflexivity|]); use_runs; split; reflexivity
          | right; do 2 eexists; do 3 (split; [reflexivity|]); use_runs;
            split; reflexivity ].
Qed.

(** X3. What [vortex_flow] raises is what the last operation it ran raised:
    the call of the primary, the fallback not having been called, or the
    call of the fallback, made after the primary raised an [Exception].
    No error is made up and none is wrapped. *)
Theorem vortex_flow_raises_the_last_error primary fallback context w x :
  outcome (vortex_flow primary fallback context w) = Raised x ->
  (outcome (await_call Primary primary w) = Raised x /\
   calls Fallback (trace (vortex_flow primary fallback context w)) = 0%nat) \/
  (exists e,
     outcome (await_call Primary primary w) = Raised (Exc e) /\
     truthy fallback = true /\
     outcome (await_call Fallback fallback
                (world_after (await_call Primary primary w))) = Raised x).
Proof.
  flow_cases; intros H; try discriminate H; injection H as <-;
    first [ left; split; reflexivity
          | right; eexists; repeat split; reflexivity ].
Qed.

(** X4. The log tells the outcome.  The first record is always the INFO
    record that names the context; one WARNING is logged exactly when the
    call of the primary raised an [Exception]; one ERROR is logged exactly
    when [vortex_flow] itself ends with an [Exception]. *)
Theorem vortex_flow_log_tells_the_outcome primary fallback context w :
  hd_error (trace (vortex_flow primary fallback context w))
    = Some (Log INFO (ExecutingVector context)) /\
  logged WARNING (trace (vortex_flow primary fallback context w))
    = match outcome (await_call Primary primary w) with
      | Raised (Exc _) => 1%nat
      | _ => 0%nat
      end /\
  logged ERROR (trace (vortex_flow primary fallback context w))
    = match outcome (vortex_flow primary fallback context w) with
      | Raised (Exc _) => 1%nat
      | _ => 0%nat
      end.
Proof.
  flow_cases; repeat split.
Qed.

(** X5. The context is a label for the log and nothing else: two runs that
    differ only in it end with the same result, in the same world, after
    the same calls. *)
Theorem vortex_flow_context_only_labels primary fallback context context' w :
  outcome (vortex_flow primary fallback context w)
    = outcome (vortex_flow primary fallback context' w) /\
  world_after (vortex_flow primary fallback context w)
    = world_after (vortex_flow primary fallback context' w) /\
  filter is_any_call (trace (vortex_flow primary fallback context w))
    = filter is_any_call (trace (vortex_flow primary fallback context' w)).
Proof.
  flow_cases; repeat split.
Qed.

(** X6. A fallback that is truthy but cannot be called (an integer, a
    string) is still engaged: the call attempt raises [TypeError] inside
    the inner [try], it is logged as a failed fallback, and the caller
    gets that [TypeError] instead of the primary's error. *)
Theorem truthy_non_callable_fallback_replaces_primary_error
        primary fallback context p w e w1 tr1 :
  callable primary = Some p ->
  p w = (Raised (Exc e), w1, tr1) ->
  truthy fallback = true ->
  callable fallback = None ->
  vortex_flow primary fallback context w
    = (Raised (Exc (not_callable fallback)), w1,
       [Log INFO (ExecutingVector context); Call Primary tr1;
        Log WARNING (VectorInstability context e); Log INFO InvertingVector;
        Log ERROR (FallbackAlsoFailed (not_callable fallback))]).
Proof.
  intros Hc Hp Ht Hcf.
  unfold_flow. rewrite Hc, Hp, Ht, Hcf. reflexivity.
Qed.

(** X7. A fallback that ends with a [BaseException] outside [Exception]
    (cancellation, [KeyboardInterrupt]) is not handled by the inner
    [except Exception]: it reaches the caller as it is and no failure of
    the fallback is logged. *)
Theorem interrupted_fallback_is_not_logged
        primary fallback context p f w e w1 tr1 s w2 tr2 :
  callable primary = Some p ->
  p w = (Raised (Exc e), w1, tr1) ->
  truthy fallback = true ->
  callable fallback = Some f ->
  f w1 = (Raised (Sig s), w2, tr2) ->
  vortex_flow primary fallback context w
    = (Raised (Sig s), w2,
       [Log INFO (ExecutingVector context); Call Primary tr1;
        Log WARNING (VectorInstability context e); Log INFO InvertingVector;
        Call Fallback tr2]).
Proof.
  intros Hc Hp Ht Hcf Hf.
  unfold_flow. rewrite Hc, Hp, Ht, Hcf, Hf. reflexivity.
Qed.

(** X8. Flows nest into an ordered chain: with a flow over [second] and
    [third] as the fallback of a flow over [first], the three are tried in
    that order, each in the world the one before left, and the first
    value returned is the result; here the first two fail and the third
    returns. *)
Theorem nested_flow_tries_in_order
        (first second third : @M World T) context context'
        w e1 w1 tr1 e2 w2 tr2 r w3 tr3 :
  first w = (Raised (Exc e1), w1, tr1) ->
  second w1 = (Raised (Exc e2), w2, tr2) ->
  third w2 = (Returned r, w3, tr3) ->
  vortex_flow (PyFunction first)
    (PyFunction (vortex_flow (PyFunction second) (PyFunction third) context'))
    context w
    = (Returned r, w3,
       [Log INFO (ExecutingVector context); Call Primary tr1;
        Log WARNING (VectorInstability context e1); Log INFO InvertingVector;
        Call Fallback
          [Log INFO (ExecutingVector context'); Call Primary tr2;
           Log WARNING (VectorInstability context' e2); Log INFO InvertingVector;
           Call Fallback tr3; Log INFO StabilizedViaFallback];
        Log INFO StabilizedViaFallback]).
Proof.
  intros H1 H2 H3.
  unfold_flow. cbn [callable truthy]. rewrite H1. cbn.
  rewrite H2. cbn. rewrite H3. reflexivity.
Qed.

End FlowInvariants.

(** * Further properties of the retried call *)

Lemma calls_attempt_then c d (inner tr : list event) :
  calls Wrapped (Call c inner :: Sleep d :: tr)
    = (calls Wrapped [Call c inner] + calls Wrapped tr)%nat.
Proof.
  change (Call c inner :: Sleep d :: tr) with ([Call c inner] ++ Sleep d :: tr).
  rewrite calls_app. reflexivity.
Qed.


Section LoopInvariants.

Context {World T : Type}.
Variable sleep : Z -> World -> option base_exn * World.
Variable r : Retrying.
Variable fn : @M World T.
Implicit Types (w : World) (retry_state : RetryCallState) (fuel : nat).

(** One turn of the loop, by what the attempt, the policy and the wait
    give. *)
Lemma retry_loop_turn fuel retry_state w :
  retry_loop sleep r fn (S fuel) retry_state w
    = match outcome (fn w) with
      | Raised (Exc e) =>
          if stop r retry_state then
            (Raised (Exc (if reraise r then e else RetryError e)),
             world_after (fn w), [Call Wrapped (trace (fn w))])
          else
            match fst (sleep (wait r retry_state) (world_after (fn w))) with
            | Some s =>
                (Raised (Sig s),
                 snd (sleep (wait r retry_state) (world_after (fn w))),
                 [Call Wrapped (trace (fn w)); Sleep (wait r retry_state)])
            | None =>
                let x := retry_loop sleep r fn fuel
                           (prepare_for_next_attempt (wait r retry_state) retry_state)
                           (snd (sleep (wait r retry_state) (world_after (fn w)))) in
                (outcome x, world_after x,
                 Call Wrapped (trace (fn w)) :: Sleep (wait r retry_state) :: trace x)
            end
      | res => (res, world_after (fn w), [Call Wrapped (trace (fn w))])
      end.
Proof.
  cbn [retry_loop].
  unfold try_except_Exception, invoke, bind, sleep_for, raise, outcome,
    world_after, trace.
  destruct (fn w) as [[[a | [e | s] | ] w1] tr]; cbn; try reflexivity.
  destruct (stop r retry_state); [reflexivity|].
  destruct (sleep (wait r retry_state) w1) as [[s|] w2]; cbn; [reflexivity|].
  destruct (retry_loop sleep r fn fuel _ w2) as [[res w3] tr3]. reflexivity.
Qed.





End LoopInvariants.

Section TaskInvariants.

Context {World T : Type}.
Variable sleep : Z -> World -> option base_exn * World.
Variables retries min_wait max_wait : Z.
Variable fn : @M World T.

Let policy : Retrying := vortex_task retries min_wait max_wait.

(** The attempts still allowed when attempt [attempt_number] starts. *)
Let remaining (retry_state : RetryCallState) : nat :=
  Z.to_nat (Z.max 1 (retries - attempt_number retry_state + 1)).

Lemma remaining_when_going_on retry_state seconds :
  stop policy retry_state = false ->
  remaining retry_state
    = S (remaining (prepare_for_next_attempt seconds retry_state)).
Proof.
  unfold policy. rewrite stop_vortex_task. intros Hstop.
  apply Z.leb_gt in Hstop. unfold remaining.
  cbn [prepare_for_next_attempt attempt_number]. lia.
Qed.

Lemma bounded_from fuel : forall retry_state w,
  let tr := trace (retry_loop sleep policy fn fuel retry_state w) in
  (calls Wrapped tr <= remaining retry_state)%nat /\
  (List.length (sleeps tr) <= remaining retry_state - 1)%nat.
Proof.
  induction fuel as [|fuel IH]; intros retry_state w tr; subst tr.
  - cbn. lia.
  - rewrite retry_loop_turn.
    assert (Hpos : (1 <= remaining retry_state)%nat) by (unfold remaining; lia).
    destruct (outcome (fn w)) as [a | [e | s] | ]; try (cbn; lia).
    destruct (stop policy retry_state) eqn:Hstop; [cbn; lia|].
    rewrite (remaining_when_going_on _ (wait policy retry_state) Hstop).
    destruct (fst (sleep (wait policy retry_state) (world_after (fn w)))).
    + set (n := remaining (prepare_for_next_attempt (wait policy retry_state)
                             retry_state)) in *.
      assert (1 <= n)%nat by (subst n; unfold remaining; lia).
      clearbody n. cbn. lia.
    + cbn zeta. cbn [trace snd]. rewrite calls_attempt_then.
      cbn [sleeps List.length].
      change (calls Wrapped [Call Wrapped (trace (fn w))]) with 1%nat.
      specialize (IH (prepare_for_next_attempt (wait policy retry_state) retry_state)
                     (snd (sleep (wait policy retry_state) (world_after (fn w))))).
      cbn zeta in IH. unfold trace in *.
      set (n := remaining (prepare_for_next_attempt (wait policy retry_state)
                             retry_state)) in *.
      assert (1 <= n)%nat by (subst n; unfold remaining; lia).
      clearbody n. lia.
Qed.

Lemma terminates_from fuel : forall retry_state w,
  terminates fn ->
  (remaining retry_state <= fuel)%nat ->
  outcome (retry_loop sleep policy fn fuel retry_state w) <> OutOfFuel.
Proof.
  induction fuel as [|fuel IH]; intros retry_state w Hfn Hfuel.
  - unfold remaining in Hfuel. lia.
  - rewrite retry_loop_turn. specialize (Hfn w) as Hw.
    destruct (outcome (fn w)) as [a | [e | s] | ]; try (cbn; congruence).
    destruct (stop policy retry_state) eqn:Hstop; [cbn; congruence|].
    rewrite (remaining_when_going_on _ (wait policy retry_state) Hstop) in Hfuel.
    destruct (fst (sleep (wait policy retry_state) (world_after (fn w))));
      [cbn; congruence|].
    cbn zeta. cbn [outcome fst]. apply IH; [exact Hfn | lia].
Qed.

(** X9. Whatever the operation and the waits do, a call under
    [vortex_task(retries)] invokes the operation at most
    [max(1, retries)] times and waits at most one time fewer. *)
Theorem retried_call_attempts_are_bounded fuel w :
  (calls Wrapped
     (trace (retry_call sleep (vortex_task retries min_wait max_wait) fn fuel w))
   <= attempts_allowed retries)%nat /\
  (List.length
     (sleeps
        (trace (retry_call sleep (vortex_task retries min_wait max_wait) fn fuel w)))
   <= attempts_allowed retries - 1)%nat.
Proof.
  pose proof (bounded_from fuel first_attempt w) as H. cbn zeta in H.
  unfold remaining, first_attempt in H. cbn [attempt_number] in H.
  unfold retry_call, attempts_allowed. fold policy.
  replace (retries - 1 + 1) with retries in H by lia. exact H.
Qed.

(** X10. The retried call terminates: when each invocation of the operation
    returns or raises, [max(1, retries)] units of fuel are enough for the
    call to return or raise, whatever the operation and the waits do. *)
Theorem retried_call_terminates fuel w :
  terminates fn ->
  (attempts_allowed retries <= fuel)%nat ->
  outcome (retry_call sleep (vortex_task retries min_wait max_wait) fn fuel w)
    <> OutOfFuel.
Proof.
  intros Hfn Hfuel. unfold retry_call. fold policy.
  apply terminates_from; [exact Hfn|].
  unfold remaining, first_attempt. cbn [attempt_number].
  unfold attempts_allowed in Hfuel.
  replace (retries - 1 + 1) with retries by lia. exact Hfuel.
Qed.





End TaskInvariants.

(** * The two layers together *)

Section Layers.

Context {World T : Type}.
Implicit Types (fallback : @pyval World T) (f fn : @M World T).

(** X15. The retry layer under the flow layer: when the primary is a call
    retried under [vortex_task(retries = N)], [N >= 1], of an operation
    that fails at every invocation, the operation is invoked [N] times
    inside the one call of the primary, then the fallback is called once,
    in the world the last attempt left, and its value is the result. *)
Theorem exhausted_retried_primary_falls_back
        (sleep : Z -> World -> option base_exn * World)
        retries min_wait max_wait fn fuel fallback f context w r w2 tr2 :
  1 <= retries ->
  always_fails fn ->
  never_interrupted sleep ->
  (Z.to_nat retries <= fuel)%nat ->
  truthy fallback = true ->
  callable fallback = Some f ->
  f (world_after (retry_call sleep (vortex_task retries min_wait max_wait) fn fuel w))
    = (Returned r, w2, tr2) ->
  let retried := retry_call sleep (vortex_task retries min_wait max_wait) fn fuel in
  let run := vortex_flow (PyFunction retried) fallback context w in
  outcome run = Returned r /\
  world_after run = w2 /\
  calls Wrapped (trace (retried w)) = Z.to_nat retries /\
  calls Primary (trace run) = 1%nat /\
  calls Fallback (trace run) = 1%nat /\
  exists e,
    trace run
      = [Log INFO (ExecutingVector context); Call Primary (trace (retried w));
         Log WARNING (VectorInstability context e); Log INFO InvertingVector;
         Call Fallback tr2; Log INFO StabilizedViaFallback].
Proof.
  intros Hn Hfn Hsleep Hfuel Ht Hcf Hf retried run.
  destruct (exhausted_run sleep retries min_wait max_wait fn fuel w
              Hn Hfn Hsleep Hfuel) as [e [_ Hrun]].
  fold (retried w) in Hrun, Hf.
  assert (Hcalls : calls Wrapped (trace (retried w)) = Z.to_nat retries).
  { rewrite Hrun. cbn [trace snd]. rewrite calls_app, calls_waits_trace. cbn. lia. }
  assert (Hflow : run
            = (Returned r, w2,
               [Log INFO (ExecutingVector context); Call Primary (trace (retried w));
                Log WARNING (VectorInstability context e); Log INFO InvertingVector;
                Call Fallback tr2; Log INFO StabilizedViaFallback])).
  { subst run. unfold_flow. cbn [callable].
    destruct (retried w) as [[res w1] tr1] eqn:Hretried.
    injection Hrun as -> -> ->. cbn [world_after fst snd] in Hf.
    rewrite Ht, Hcf. cbn. rewrite Hf. reflexivity. }
  rewrite Hflow. cbn [outcome world_after trace fst snd].
  repeat split; try exact Hcalls. exists e. reflexivity.
Qed.

End Layers.

(** * The further theorems at the scenarios' inputs *)

Module MoreInstances.

Import Scenario.

Lemma vortex_flow_calls_each_at_most_once_at_backup :
  calls Fallback (trace (vortex_flow unreachable backup "ctx" start)) = 1%nat /\
  truthy backup = true /\
  (exists e, outcome (await_call Primary unreachable start) = Raised (Exc e)) /\
  (calls Primary (trace (vortex_flow unreachable backup "ctx" start)) <= 1)%nat.
Proof.
  destruct (vortex_flow_calls_each_at_most_once unreachable backup "ctx" start)
    as [Hp [_ Hf]].
  split; [reflexivity|].
  destruct (Hf eq_refl) as [Ht He].
  split; [exact Ht|]. split; [exact He | exact Hp].
Defined.

Lemma vortex_flow_returns_only_what_an_operation_returned_at_backup :
  outcome (vortex_flow unreachable backup "ctx" start) = Returned "LOCAL_BACKUP" /\
  ((exists p,
      callable unreachable = Some p /\
      outcome (p start) = Returned "LOCAL_BACKUP" /\
      world_after (vortex_flow unreachable backup "ctx" start) = world_after (p start)) \/
   (exists e f,
      outcome (await_call Primary unreachable start) = Raised (Exc e) /\
      truthy backup = true /\
      callable backup = Some f /\
      outcome (f (world_after (await_call Primary unreachable start)))
        = Returned "LOCAL_BACKUP" /\
      world_after (vortex_flow unreachable backup "ctx" start)
        = world_after (f (world_after (await_call Primary unreachable start))))).
Proof.
  split; [reflexivity|].
  exact (vortex_flow_returns_only_what_an_operation_returned
           unreachable backup "ctx" start "LOCAL_BACKUP" eq_refl).
Defined.

Lemma vortex_flow_raises_the_last_error_at_broken_backup :
  outcome (vortex_flow unreachable (PyFunction broken_backup) "ctx" start)
    = Raised (Exc DiskError) /\
  ((outcome (await_call Primary unreachable start) = Raised (Exc DiskError) /\
    calls Fallback
      (trace (vortex_flow unreachable (PyFunction broken_backup) "ctx" start))
      = 0%nat) \/
   (exists e,
      outcome (await_call Primary unreachable start) = Raised (Exc e) /\
      truthy (PyFunction broken_backup) = true /\
      outcome (await_call Fallback (PyFunction broken_backup)
                 (world_after (await_call Primary unreachable start)))
        = Raised (Exc DiskError))).
Proof.
  split; [reflexivity|].
  exact (vortex_flow_raises_the_last_error
           unreachable (PyFunction broken_backup) "ctx" start (Exc DiskError)
           eq_refl).
Defined.

Lemma truthy_non_callable_fallback_replaces_primary_error_at_5 :
  callable unreachable = Some raises_ConnectionError /\
  raises_ConnectionError start = (Raised (Exc ConnectionError), tick start, []) /\
  truthy (PyInt 5 : @pyval world string) = true /\
  callable (PyInt 5 : @pyval world string) = None /\
  vortex_flow unreachable (PyInt 5) "ctx" start
    = (Raised (Exc (Exn "TypeError" "'int' object is not callable")), tick start,
       [Log INFO (ExecutingVector "ctx"); Call Primary [];
        Log WARNING (VectorInstability "ctx" ConnectionError);
        Log INFO InvertingVector;
        Log ERROR (FallbackAlsoFailed
                     (Exn "TypeError" "'int' object is not callable"))]).
Proof.
  repeat (split; [reflexivity|]).
  apply (truthy_non_callable_fallback_replaces_primary_error
           unreachable (PyInt 5) "ctx" raises_ConnectionError start
           ConnectionError (tick start) []);
    reflexivity.
Defined.

Lemma interrupted_fallback_is_not_logged_at_cancelled :
  callable unreachable = Some raises_ConnectionError /\
  raises_ConnectionError start = (Raised (Exc ConnectionError), tick start, []) /\
  truthy (PyFunction cancelled_in_flight) = true /\
  callable (PyFunction cancelled_in_flight) = Some cancelled_in_flight /\
  cancelled_in_flight (tick start)
    = (Raised (Sig CancelledError), tick (tick start), []) /\
  vortex_flow unreachable (PyFunction cancelled_in_flight) "ctx" start
    = (Raised (Sig CancelledError), tick (tick start),
       [Log INFO (ExecutingVector "ctx"); Call Primary [];
        Log WARNING (VectorInstability "ctx" ConnectionError);
        Log INFO InvertingVector; Call Fallback []]).
Proof.
  repeat (split; [reflexivity|]).
  apply (interrupted_fallback_is_not_logged
           unreachable (PyFunction cancelled_in_flight) "ctx"
           raises_ConnectionError cancelled_in_flight start
           ConnectionError (tick start) [] CancelledError (tick (tick start)) []);
    reflexivity.
Defined.

Lemma nested_flow_tries_in_order_at_three :
  raises_ConnectionError start = (Raised (Exc ConnectionError), tick start, []) /\
  broken_backup (tick start) = (Raised (Exc DiskError), tick (tick start), []) /\
  returns "LOCAL_BACKUP" (tick (tick start))
    = (Returned "LOCAL_BACKUP", tick (tick (tick start)), []) /\
  vortex_flow unreachable
    (PyFunction (vortex_flow (PyFunction broken_backup) backup "disk"))
    "net" start
    = (Returned "LOCAL_BACKUP", tick (tick (tick start)),
       [Log INFO (ExecutingVector "net"); Call Primary [];
        Log WARNING (VectorInstability "net" ConnectionError);
        Log INFO InvertingVector;
        Call Fallback
          [Log INFO (ExecutingVector "disk"); Call Primary [];
           Log WARNING (VectorInstability "disk" DiskError);
           Log INFO InvertingVector;
           Call Fallback []; Log INFO StabilizedViaFallback];
        Log INFO StabilizedViaFallback]).
Proof.
  repeat (split; [reflexivity|]).
  exact (nested_flow_tries_in_order raises_ConnectionError broken_backup
           (returns "LOCAL_BACKUP") "net" "disk" start
           ConnectionError (tick start) [] DiskError (tick (tick start)) []
           "LOCAL_BACKUP" (tick (tick (tick start))) []
           eq_refl eq_refl eq_refl).
Defined.

Lemma succeeds_on_terminates k s : terminates (succeeds_on k s).
Proof.
  intros w. unfold succeeds_on, outcome.
  destruct (S (invocations w) <? k)%nat; cbn; discriminate.
Defined.

Lemma retried_call_terminates_at_succeeds_on_9 :
  terminates (succeeds_on 9 "CLOUD_DATA") /\
  (attempts_allowed 5 <= 5)%nat /\
  outcome (retry_call cancellable_sleep (vortex_task 5 1 4)
             (succeeds_on 9 "CLOUD_DATA") 5 cancelled_at_2) <> OutOfFuel.
Proof.
  split; [apply succeeds_on_terminates|].
  split; [cbn; lia|].
  apply (retried_call_terminates cancellable_sleep 5 1 4
           (succeeds_on 9 "CLOUD_DATA") 5 cancelled_at_2).
  - apply succeeds_on_terminates.
  - cbn. lia.
Defined.



Lemma exhausted_retried_primary_falls_back_at_3 :
  1 <= 3 /\
  always_fails raises_ConnectionError /\
  never_interrupted sleep /\
  (Z.to_nat 3 <= 3)%nat /\
  truthy backup = true /\
  callable backup = Some (returns "LOCAL_BACKUP") /\
  outcome
    (vortex_flow
       (PyFunction (retry_call sleep (vortex_task 3 1 4) raises_ConnectionError 3))
       backup "ctx" start)
    = Returned "LOCAL_BACKUP" /\
  calls Wrapped
    (trace (retry_call sleep (vortex_task 3 1 4) raises_ConnectionError 3 start))
    = Z.to_nat 3.
Proof.
  split; [lia|].
  split; [exact Instances.raises_ConnectionError_always_fails|].
  split; [exact Instances.sleep_never_interrupted|].
  split; [cbn; lia|].
  split; [reflexivity|]. split; [reflexivity|].
  destruct (exhausted_retried_primary_falls_back sleep 3 1 4
              raises_ConnectionError 3 backup (returns "LOCAL_BACKUP") "ctx" start
              "LOCAL_BACKUP"
              {| invocations := 4; clock := 3; cancel_at := None |} []
              ltac:(lia) Instances.raises_ConnectionError_always_fails
              Instances.sleep_never_interrupted ltac:(cbn; lia)
              eq_refl eq_refl eq_refl)
    as [Hout [_ [Hcalls _]]].
  split; [exact Hout | exact Hcalls].
Defined.

End MoreInstances.
